(** * vue3-gettext: the translation resolver of [src/translate.ts]

    A shallow embedding of [translate(language).getTranslation] and of its
    four wrappers, followed by the properties of the resolver.

    Conventions of the embedding.
    - A JavaScript object used as a dictionary is a [gmap] keyed by strings.
      A property read [o[k]] finds an own property first (a key of a
      dictionary, an index or ["length"] of an array or string) and then a
      member that [o] inherits through its prototype chain (["constructor"],
      ["toString"], ...).  The built-in objects are not code of this
      repository: what a plain object, a string, an array and a number
      inherit is given by a [Realm], a parameter of the development, and
      every theorem holds for every realm.  No prototype has a member named
      by a decimal index, so a read with a number sees own properties only.
      A dictionary with a context named ["hasOwnProperty"] (which would
      shadow the method called on line 79) is not an input of the model.
    - A string is a [string] whose characters are the code units of the
      JavaScript string, for strings with code units below 256; the
      no-break space U+00A0 is the character 160.  [trim] removes the white
      space of that range: the characters 9 to 13, 32 and 160.
    - The count [n : number | null] is an integer or [null] ([option Z]);
      it is printed in decimal, as [String(n)] prints an integer below
      10^21 in magnitude.
    - [console.warn] is modelled by the list of the messages written, in
      order; a call returns this list together with its outcome.
    - [plurals.getTranslationIndex] belongs to another module; it is a
      parameter of the development. *)

From Stdlib Require Import Ascii.
From stdpp Require Import base decidable option list gmap strings pretty.

Local Open Scope string_scope.
Local Open Scope Z_scope.

(** ** Data model ([typeDefs]) *)

(** [Message = string | string[]] *)
Inductive Message :=
  | MString (s : string)
  | MArray (forms : list string).

(** [LanguageData = { [messageId]: Message | MessageContext }] with
    [MessageContext = { [context]: Message }] *)
Inductive Entry :=
  | EMessage (m : Message)
  | EContext (c : gmap string Message).

Abbreviation MessageContext := (gmap string Message).
Abbreviation LanguageData := (gmap string Entry).
Abbreviation Translations := (gmap string (gmap string Entry)).
Abbreviation Parameters := (gmap string string).

(** The [Language] object the closure is built from. *)
Record Language := mkLanguage {
  current : string;
  translations : Translations;
  muted : list string;
  silent : bool;
  interpolate : string → Parameters → bool → string
}.

(** ** Built-in objects

    A built-in object (a function such as [Object] or [toString], a
    prototype object) as the resolver can observe it: its own ["length"],
    if it has one, and what a read of any other property yields, own or
    inherited.  A read can throw: the ["caller"] of a built-in function
    throws a [TypeError]. *)
Inductive Builtin :=
  | MkBuiltin (len : option nat) (members : string → Read)
with Read :=
  | RUndefined
  | RNumber (k : nat)
  | RString (s : string)
  | RObject (b : Builtin)
  | RThrows (message : string).

(** The members that the values of a dictionary inherit through their
    prototype chains: a plain object (the dictionary, a table, a context
    map) from [Object.prototype], a string from [String.prototype], an array
    from [Array.prototype], a number from [Number.prototype]. *)
Class Realm := {
  objectMember : string → option Builtin;
  stringMember : string → option Builtin;
  arrayMember : string → option Builtin;
  numberMember : string → option Builtin
}.

(** The values the local variable [translated] can hold.  [VError] stands
    for a read that threw: no value is in hand, and the error is the outcome
    of the call. *)
Inductive Value :=
  | VUndefined
  | VNumber (k : nat)
  | VString (s : string)
  | VArray (l : list string)
  | VObject (c : MessageContext)
  | VBuiltin (b : Builtin)
  | VError (message : string).

(** How a call ends: a string is returned, an [Error] is thrown, or a value
    that is not a string flows through the [as string[]] cast into [interp]
    (the call has left its declared types). *)
Inductive Outcome :=
  | Returned (s : string)
  | Thrown (message : string)
  | IllTyped.

Definition messageValue (m : Message) : Value :=
  match m with
  | MString s => VString s
  | MArray l => VArray l
  end.

Definition entryValue (e : Entry) : Value :=
  match e with
  | EMessage m => messageValue m
  | EContext c => VObject c
  end.

(** JavaScript truthiness.  A read that threw counts as found: the call
    takes no fallback, it ends with the error (see [selectForm]). *)
Definition truthy (v : Value) : bool :=
  match v with
  | VUndefined => false
  | VNumber k => negb (Nat.eqb k 0)
  | VString s => negb (bool_decide (s = ""))
  | VArray _ | VObject _ | VBuiltin _ | VError _ => true
  end.

(** ** String primitives *)

(** White space and line terminators among the code units below 256: tab,
    line feed, vertical tab, form feed, carriage return, space and the
    no-break space. *)
Definition isWhiteSpace (a : ascii) : bool :=
  Ascii.is_space a || Ascii.eqb a "160"%char.

Fixpoint trimStart (s : string) : string :=
  match s with
  | "" => ""
  | String a s' => if isWhiteSpace a then trimStart s' else s
  end.

Fixpoint trimEnd (s : string) : string :=
  match s with
  | "" => ""
  | String a s' =>
      match trimEnd s' with
      | "" => if isWhiteSpace a then "" else String a ""
      | t => String a t
      end
  end.

(** [s.trim()] *)
Definition trim (s : string) : string := trimEnd (trimStart s).

(** [s.split("_")[0]]: the characters before the first underscore *)
Fixpoint splitFirst (s : string) : string :=
  match s with
  | "" => ""
  | String a s' => if Ascii.eqb a "_"%char then "" else String a (splitFirst s')
  end.

Fixpoint stringLength (s : string) : nat :=
  match s with
  | "" => 0%nat
  | String _ s' => S (stringLength s')
  end.

Fixpoint charAt (s : string) (i : nat) : option string :=
  match s, i with
  | "", _ => None
  | String a _, O => Some (String a "")
  | String _ s', S i' => charAt s' i'
  end.

Fixpoint digitsValue (acc : nat) (s : string) : option nat :=
  match s with
  | "" => Some acc
  | String a s' =>
      match Ascii.is_nat a with
      | Some d => digitsValue (10 * acc + d) s'
      | None => None
      end
  end.

(** A property name that is a canonical array index: decimal digits without
    a leading zero. *)
Definition arrayIndex (key : string) : option nat :=
  match key with
  | "" => None
  | String a rest =>
      if Ascii.eqb a "0"%char
      then (if bool_decide (rest = "") then Some 0%nat else None)
      else digitsValue 0 key
  end.

(** [String(n)] for the count *)
Definition showCount (n : option Z) : string :=
  match n with
  | Some z => pretty z
  | None => "null"
  end.

(** ** Property reads *)

Definition fromOption (o : option string) : Value :=
  match o with
  | Some s => VString s
  | None => VUndefined
  end.

(** What a read yields. *)
Definition readValue (r : Read) : Value :=
  match r with
  | RUndefined => VUndefined
  | RNumber k => VNumber k
  | RString s => VString s
  | RObject b => VBuiltin b
  | RThrows message => VError message
  end.

(** An inherited member, if there is one. *)
Definition inherited (o : option Builtin) : Value :=
  match o with
  | Some b => VBuiltin b
  | None => VUndefined
  end.

(** [b[key]] for a built-in object [b] *)
Definition builtinProp (b : Builtin) (key : string) : Value :=
  match b with
  | MkBuiltin len members =>
      if bool_decide (key = "length")
      then match len with
           | Some k => VNumber k
           | None => VUndefined
           end
      else readValue (members key)
  end.

(** [v[key]] for a string [key] (line 64: [translated[context]]): an own
    property, else an inherited member *)
Definition getProp {realm : Realm} (v : Value) (key : string) : Value :=
  match v with
  | VString s =>
      if bool_decide (key = "length") then VNumber (stringLength s)
      else match arrayIndex key with
           | Some i => fromOption (charAt s i)
           | None => inherited (stringMember key)
           end
  | VArray l =>
      if bool_decide (key = "length") then VNumber (length l)
      else match arrayIndex key with
           | Some i => fromOption (l !! i)
           | None => inherited (arrayMember key)
           end
  | VObject c =>
      match c !! key with
      | Some m => messageValue m
      | None => inherited (objectMember key)
      end
  | VNumber _ => inherited (numberMember key)
  | VBuiltin b => builtinProp b key
  | VError message => VError message
  | VUndefined => VUndefined
  end.

(** [v[i]] for a number [i] (lines 95 and 98: [translated[translationIndex]]):
    an own property; no prototype and no built-in object has one *)
Definition getIndex (v : Value) (i : nat) : Value :=
  match v with
  | VString s => fromOption (charAt s i)
  | VArray l => fromOption (l !! i)
  | VObject c =>
      match c !! pretty i with
      | Some m => messageValue m
      | None => VUndefined
      end
  | VError message => VError message
  | VNumber _ | VUndefined | VBuiltin _ => VUndefined
  end.

(** [!(v instanceof Array) && v.hasOwnProperty("")] *)
Definition hasVoidContext (v : Value) : bool :=
  match v with
  | VObject c => bool_decide (is_Some (c !! ""))
  | _ => false
  end.

(** [v.length === 1] *)
Definition lengthIsOne (v : Value) : bool :=
  match v with
  | VString s => Nat.eqb (stringLength s) 1
  | VArray l => Nat.eqb (length l) 1
  | VBuiltin (MkBuiltin (Some k) _) => Nat.eqb k 1
  | _ => false
  end.

(** ** The resolver *)

(** What line 49 can find under a language key: a table of the dictionary,
    or a built-in object that the dictionary inherits. *)
Inductive Source :=
  | OwnTable (table : LanguageData)
  | BuiltinTable (b : Builtin).

Section Translate.

Context {realm : Realm}.

(** [plurals.getTranslationIndex(languageKey, n)]: a zero-based index *)
Variable getTranslationIndex : string → option Z → nat.

(** lines 30-31, the local arrow function [interp] *)
Definition interp (language : Language) (disableHtmlEscaping : bool)
    (message : string) (parameters : option Parameters) : string :=
  match parameters with
  | Some p => interpolate language message p disableHtmlEscaping
  | None => message
  end.

(** line 37, the local constant [silent] *)
Definition isSilent (language : Language) (languageKey : string) : bool :=
  if negb (bool_decide (languageKey = ""))
  then silent language || bool_decide (languageKey ∈ muted language)
  else false.

(** line 40, the local constant [untranslated] *)
Definition untranslated (msgid : string) (n : option Z)
    (defaultPlural : option string) (languageKey : string) : string :=
  match defaultPlural with
  | Some d =>
      if negb (bool_decide (d = ""))
         && Nat.ltb 0 (getTranslationIndex languageKey n)
      then d else msgid
  | None => msgid
  end.

(** [pluginTranslations[key]]: an own table, else an inherited member *)
Definition readLanguage (pluginTranslations : Translations) (key : string)
    : option Source :=
  match pluginTranslations !! key with
  | Some table => Some (OwnTable table)
  | None =>
      match objectMember key with
      | Some b => Some (BuiltinTable b)
      | None => None
      end
  end.

(** lines 48-49, the local constant [translations] *)
Definition resolveLanguage (pluginTranslations : Translations)
    (languageKey : string) : option Source :=
  match readLanguage pluginTranslations languageKey with
  | Some source => Some source
  | None => readLanguage pluginTranslations (splitFirst languageKey)
  end.

(** lines 48-49, when [translations] is a table of the dictionary *)
Definition resolveTranslations (pluginTranslations : Translations)
    (languageKey : string) : option LanguageData :=
  match resolveLanguage pluginTranslations languageKey with
  | Some (OwnTable table) => Some table
  | _ => None
  end.

(** line 61, [translations[msgid]] for a table of the dictionary *)
Definition readTable (table : LanguageData) (msgid : string) : Value :=
  match table !! msgid with
  | Some e => entryValue e
  | None => inherited (objectMember msgid)
  end.

(** lines 63-65 *)
Definition applyContext (translated : Value) (context : option string)
    : Value :=
  match context with
  | Some c =>
      if truthy translated && negb (bool_decide (c = ""))
      then getProp translated c
      else translated
  | None => translated
  end.

(** lines 61-65, [translated] after the context has been applied, for a
    table of the dictionary *)
Definition lookupTranslated (table : LanguageData) (msgid : string)
    (context : option string) : Value :=
  applyContext (readTable table msgid) context.

(** lines 61-65 for either source *)
Definition lookupIn (source : Source) (msgid : string)
    (context : option string) : Value :=
  match source with
  | OwnTable table => lookupTranslated table msgid context
  | BuiltinTable b => applyContext (builtinProp b msgid) context
  end.

(** lines 69-72, the text of the second warning *)
Definition untranslatedWarning (languageKey msgid : string)
    (context : option string) : string :=
  let msg := "Untranslated " +:+ languageKey +:+ " key found: " +:+ msgid in
  match context with
  | Some c =>
      if negb (bool_decide (c = ""))
      then msg +:+ " (with context: " +:+ c +:+ ")"
      else msg
  | None => msg
  end.

(** lines 79-82 *)
Definition unwrapVoidContext (translated : Value) : Value :=
  if hasVoidContext translated then getProp translated "" else translated.

(** lines 88-93, [translationIndex] *)
Definition pluralIndex (languageKey : string) (n : option Z)
    (translated : Value) : nat :=
  if lengthIsOne translated && bool_decide (n = Some 1)
  then 0%nat
  else getTranslationIndex languageKey n.

(** line 96, the message of the thrown [Error] *)
Definition errorMessage (language : Language) (msgid : string)
    (translationIndex : nat) (n : option Z) : string :=
  msgid +:+ " " +:+ pretty translationIndex +:+ " " +:+ current language
        +:+ " " +:+ showCount n.

(** lines 84-98; a read that threw on lines 61-64 ends the call here *)
Definition selectForm (language : Language) (languageKey msgid : string)
    (n : option Z) (parameters : option Parameters)
    (disableHtmlEscaping : bool) (translated : Value) : Outcome :=
  match translated with
  | VString s => Returned (interp language disableHtmlEscaping s parameters)
  | VError message => Thrown message
  | _ =>
      let translationIndex := pluralIndex languageKey n translated in
      let form := getIndex translated translationIndex in
      if negb (truthy form)
      then Thrown (errorMessage language msgid translationIndex n)
      else match form with
           | VString s =>
               Returned (interp language disableHtmlEscaping s parameters)
           | _ => IllTyped
           end
  end.

(** lines 17-99; the result is the list of warnings and the outcome.  The
    arguments are the parameters after their defaults have been applied: [n]
    is [Some 1] for an omitted count and [None] for [null]; [languageKey] is
    [None] for an omitted key. *)
Definition getTranslation (language : Language) (msgid : string)
    (n : option Z) (context defaultPlural languageKey : option string)
    (parameters : option Parameters) (disableHtmlEscaping : bool)
    : list string * Outcome :=
  let languageKey := default (current language) languageKey in
  if bool_decide (msgid = "") then ([], Returned "")
  else
    let silent := isSilent language languageKey in
    let untranslated := untranslated msgid n defaultPlural languageKey in
    match resolveLanguage (translations language) languageKey with
    | None =>
        (if silent then [] else ["No translations found for " +:+ languageKey],
         Returned (interp language disableHtmlEscaping untranslated parameters))
    | Some source =>
        let msgid := trim msgid in
        let translated := lookupIn source msgid context in
        if negb (truthy translated)
        then
          (if silent then []
           else [untranslatedWarning languageKey msgid context],
           Returned
             (interp language disableHtmlEscaping untranslated parameters))
        else
          ([], selectForm language languageKey msgid n parameters
                 disableHtmlEscaping (unwrapVoidContext translated))
    end.

(** lines 111-113 *)
Definition gettext (language : Language) (msgid : string)
    (parameters : option Parameters) (disableHtmlEscaping : bool) :=
  getTranslation language msgid (Some 1) None None None parameters
    disableHtmlEscaping.

(** lines 126-133 *)
Definition pgettext (language : Language) (context msgid : string)
    (parameters : option Parameters) (disableHtmlEscaping : bool) :=
  getTranslation language msgid (Some 1) (Some context) None None parameters
    disableHtmlEscaping.

(** lines 148-156 *)
Definition ngettext (language : Language) (msgid plural : string) (n : Z)
    (parameters : option Parameters) (disableHtmlEscaping : bool) :=
  getTranslation language msgid (Some n) None (Some plural) None parameters
    disableHtmlEscaping.

(** lines 172-181 *)
Definition npgettext (language : Language) (context msgid plural : string)
    (n : Z) (parameters : option Parameters) (disableHtmlEscaping : bool) :=
  getTranslation language msgid (Some n) (Some context) (Some plural) None
    parameters disableHtmlEscaping.

End Translate.

(** ** Vocabulary of the properties *)

(** The fallback condition of lines 51 and 67: there is no table for the
    language, or the table yields nothing truthy for the key and context. *)
Definition notFound {realm : Realm} (dict : Translations)
    (languageKey msgid : string) (context : option string) : Prop :=
  match resolveLanguage dict languageKey with
  | None => True
  | Some source => truthy (lookupIn source (trim msgid) context) = false
  end.

(** The warning a fallback return writes when the call is not silent
    (lines 53 and 69-73). *)
Definition fallbackWarning {realm : Realm} (dict : Translations)
    (languageKey msgid : string) (context : option string) : string :=
  match resolveLanguage dict languageKey with
  | None => "No translations found for " +:+ languageKey
  | Some _ => untranslatedWarning languageKey (trim msgid) context
  end.

(** Nothing answers to the names of the request: no property under the
    language key nor under its family prefix, no property under the msgid in
    the resolved table, or no property under the requested context in the
    entry found.  A property is an own one or an inherited one: a name such
    as ["constructor"], or the context ["length"] for a string or a list, does
    find a property and is no case of [NoMatch]. *)
Inductive NoMatch {realm : Realm} (dict : Translations)
    (languageKey msgid : string) (context : option string) : Prop :=
  | NoLanguage :
      readLanguage dict languageKey = None →
      readLanguage dict (splitFirst languageKey) = None →
      NoMatch dict languageKey msgid context
  | NoKey table :
      resolveTranslations dict languageKey = Some table →
      readTable table (trim msgid) = VUndefined →
      NoMatch dict languageKey msgid context
  | NoContext table e c :
      resolveTranslations dict languageKey = Some table →
      table !! trim msgid = Some e →
      context = Some c →
      c ≠ "" →
      getProp (entryValue e) c = VUndefined →
      NoMatch dict languageKey msgid context.

(** A string that does not start with white space. *)
Definition headFixed (s : string) : Prop :=
  match s with
  | "" => True
  | String a _ => isWhiteSpace a = false
  end.

(** The language object with another dictionary. *)
Definition withTranslations (language : Language) (dict : Translations)
    : Language :=
  mkLanguage (current language) dict (muted language) (silent language)
    (interpolate language).

(** The language object with other warning settings. *)
Definition withWarnings (language : Language) (mutedKeys : list string)
    (quiet : bool) : Language :=
  mkLanguage (current language) (translations language) mutedKeys quiet
    (interpolate language).

Fixpoint noUnderscore (s : string) : bool :=
  match s with
  | "" => true
  | String a s' => negb (Ascii.eqb a "_"%char) && noUnderscore s'
  end.

(** No context is requested: [context] is [null] or the empty string. *)
Definition noContext (context : option string) : Prop :=
  context = None ∨ context = Some "".

(** ** Sample data *)

(** A fragment of the built-in objects of a JavaScript realm: the methods
    of [Object.prototype] and of [Function.prototype] and a few methods of
    the other prototypes, each with its length.  The static methods of the
    constructors are left out.  The theorems do not depend on it: they hold
    for every realm. *)
Definition objectMethods : list (string * nat) :=
  [("hasOwnProperty", 1%nat); ("isPrototypeOf", 1%nat);
   ("propertyIsEnumerable", 1%nat); ("toString", 0%nat);
   ("toLocaleString", 0%nat); ("valueOf", 0%nat);
   ("__defineGetter__", 2%nat); ("__defineSetter__", 2%nat);
   ("__lookupGetter__", 1%nat); ("__lookupSetter__", 1%nat)].

Definition functionMethods : list (string * nat) :=
  [("call", 1%nat); ("apply", 2%nat); ("bind", 1%nat); ("constructor", 1%nat)]
  ++ objectMethods.

Fixpoint findLength (methods : list (string * nat)) (key : string)
    : option nat :=
  match methods with
  | [] => None
  | (name, len) :: rest =>
      if bool_decide (key = name) then Some len else findLength rest key
  end.

(** A built-in function of which only the length is read. *)
Definition leafFunction (len : nat) : Builtin :=
  MkBuiltin (Some len) (λ _, RUndefined).

(** A built-in function: it has a name and a length, its ["caller"] and
    ["arguments"] throw, and it inherits the methods of functions and of
    objects. *)
Definition functionObject (name : string) (len : nat) : Builtin :=
  MkBuiltin (Some len)
    (λ key,
       if bool_decide (key = "name") then RString name
       else if bool_decide (key = "caller") || bool_decide (key = "arguments")
       then RThrows "TypeError: restricted function property"
       else match findLength functionMethods key with
            | Some k => RObject (leafFunction k)
            | None => RUndefined
            end).

(** A prototype object, with its own length if it has one (the prototypes
    of strings and arrays have length 0); its members are its methods and
    its constructor. *)
Definition prototypeObject (constructorName : string) (len : option nat)
    (methods : list (string * nat)) : Builtin :=
  MkBuiltin len
    (λ key,
       if bool_decide (key = "constructor")
       then RObject (functionObject constructorName 1)
       else match findLength methods key with
            | Some k => RObject (functionObject key k)
            | None => RUndefined
            end).

(** What a value inherits, given the methods of its own prototype: these
    and the methods of [Object.prototype], the constructor, and under
    ["__proto__"] the prototype itself. *)
Definition memberOf (constructorName : string) (len : option nat)
    (methods : list (string * nat)) (key : string) : option Builtin :=
  if bool_decide (key = "constructor")
  then Some (functionObject constructorName 1)
  else if bool_decide (key = "__proto__")
  then Some (prototypeObject constructorName len (methods ++ objectMethods))
  else match findLength (methods ++ objectMethods) key with
       | Some k => Some (functionObject key k)
       | None => None
       end.

Definition sampleRealm : Realm := {|
  objectMember := memberOf "Object" None [];
  stringMember :=
    memberOf "String" (Some 0%nat) [("trim", 0%nat); ("link", 1%nat)];
  arrayMember :=
    memberOf "Array" (Some 0%nat) [("filter", 1%nat); ("join", 1%nat)];
  numberMember := memberOf "Number" None [("toFixed", 1%nat)]
|}.

(** The binary rule: index 0 for a count of one, index 1 otherwise. *)
Definition binaryRule (_ : string) (n : option Z) : nat :=
  if bool_decide (n = Some 1) then 0%nat else 1%nat.

(** A rule whose index for a count of one is not 0. *)
Definition shiftedRule (_ : string) (n : option Z) : nat :=
  match n with
  | Some 0 => 0%nat
  | Some 1 => 1%nat
  | _ => 2%nat
  end.

(** An interpolator that marks its output, so that interpolated and raw
    strings can be told apart. *)
Definition markInterpolate (message : string) (_ : Parameters) (disable : bool)
    : string :=
  (if disable then "<raw>" else "<esc>") +:+ message.

Definition sampleLanguage (cur : string) (dict : Translations)
    (mutedKeys : list string) (quiet : bool) : Language :=
  mkLanguage cur dict mutedKeys quiet markInterpolate.

Definition frTable : LanguageData :=
  {[ "Hello" := EMessage (MArray ["Bonjour"; "Bonjours"]);
     "Bye" := EContext {[ "" := MString "Au revoir" ]};
     "Bank" := EContext {[ "" := MString "plain form";
                           "shelf" := MString "shelf-context form";
                           "void" := MString "" ]};
     "One" := EMessage (MArray ["only form"]);
     "Hole" := EMessage (MArray ["un"; ""]);
     "Blank" := EMessage (MArray [""]);
     "" := EMessage (MString "Project-Id-Version: demo") ]}.

Definition frDict : Translations := {[ "fr_FR" := frTable ]}.

(** "Hello" between two no-break spaces (U+00A0, the character 160). *)
Definition paddedHello : string :=
  String "160"%char ("Hello" +:+ String "160"%char "").
Definition deDict : Translations :=
  {[ "de" := ({[ "Hello" := EMessage (MString "Hallo") ]} : LanguageData) ]}.

(** ** Vocabulary of the further properties *)


(** The language object with another interpolator. *)
Definition withInterpolate (language : Language)
    (f : string → Parameters → bool → string) : Language :=
  mkLanguage (current language) (translations language) (muted language)
    (silent language) f.

(** An interpolator that discards the message. *)
Definition blankInterpolate (_ : string) (_ : Parameters) (_ : bool)
    : string := "".

(** A table whose entries exist with contexts only. *)
Definition ctxTable : LanguageData :=
  {[ "Shelf" := EContext {[ "shelf" := MString "Regal" ]};
     "Odd" := EContext {[ "1" := MArray ["a"; "b"];
                          "0" := MString "zero" ]} ]}.

Definition ctxDict : Translations :=
  {[ "de" := ctxTable;
     "de_AT" := ({[ "Hello" := EMessage (MString "Servus") ]} : LanguageData) ]}.

(** * Properties *)

(** ** String primitives *)

Lemma trimEnd_idempotent (s : string) : trimEnd (trimEnd s) = trimEnd s.
Proof.
  induction s as [|a s IH]; simpl; [done|].
  destruct (trimEnd s) as [|b t] eqn:Ht.
  - destruct (isWhiteSpace a) eqn:Ha; simpl; [done|]. by rewrite Ha.
  - simpl in *. by rewrite IH.
Qed.

Lemma trimStart_headFixed (s : string) : headFixed (trimStart s).
Proof.
  induction s as [|a s IH]; simpl; [done|].
  destruct (isWhiteSpace a) eqn:Ha; [done|]. exact Ha.
Qed.

Lemma trimStart_fixed (s : string) : headFixed s → trimStart s = s.
Proof. destruct s as [|a s]; simpl; [done|]. by intros ->. Qed.

Lemma trimEnd_headFixed (s : string) : headFixed s → headFixed (trimEnd s).
Proof.
  destruct s as [|a s]; simpl; [done|]. intros Ha.
  destruct (trimEnd s); [by rewrite Ha|done].
Qed.

Lemma trim_idempotent (s : string) : trim (trim s) = trim s.
Proof.
  unfold trim.
  rewrite (trimStart_fixed (trimEnd (trimStart s))).
  - apply trimEnd_idempotent.
  - apply trimEnd_headFixed, trimStart_headFixed.
Qed.

Lemma trim_empty : trim "" = "".
Proof. reflexivity. Qed.


Lemma splitFirst_whole (s : string) : noUnderscore s = true → splitFirst s = s.
Proof.
  induction s as [|a s IH]; simpl; [done|].
  intros [Ha Hs]%andb_true_iff.
  apply negb_true_iff in Ha. rewrite Ha. by rewrite IH.
Qed.

(** ** The resolver *)

Section Properties.

Context {realm : Realm}.

(** The plural rules: [plurals.getTranslationIndex]. *)
Variable plurals : string → option Z → nat.

Implicit Types (language : Language) (msgid : string) (n : option Z).
Implicit Types (context defaultPlural languageKey : option string).
Implicit Types (parameters : option Parameters) (disable : bool).

(** The key the call works with: the override, else [language.current]. *)
Local Abbreviation keyOf language languageKey :=
  (default (current language) languageKey).

Lemma msgid_nonempty msgid : msgid ≠ "" → bool_decide (msgid = "") = false.
Proof. intros H. by apply bool_decide_eq_false. Qed.

(** The two fallback returns, with the warning each one writes. *)
Lemma getTranslation_notFound language msgid n context defaultPlural
    languageKey parameters disable :
  msgid ≠ "" →
  notFound (translations language) (keyOf language languageKey) msgid
    context →
  getTranslation plurals language msgid n context defaultPlural languageKey
    parameters disable
  = (if isSilent language (keyOf language languageKey)
     then []
     else [fallbackWarning (translations language)
             (keyOf language languageKey) msgid context],
     Returned
       (interp language disable
          (untranslated plurals msgid n defaultPlural
             (keyOf language languageKey))
          parameters)).
Proof.
  intros Hm Hnf. unfold notFound in Hnf.
  unfold getTranslation, fallbackWarning.
  rewrite (msgid_nonempty _ Hm).
  destruct (resolveLanguage _ _) as [source|]; [|done].
  by rewrite Hnf.
Qed.

Lemma resolveTranslations_source (dict : Translations) (key : string)
    (table : LanguageData) :
  resolveTranslations dict key = Some table →
  resolveLanguage dict key = Some (OwnTable table).
Proof.
  unfold resolveTranslations.
  destruct (resolveLanguage dict key) as [[t|b]|]; [|done..]. by intros [= ->].
Qed.

Lemma getTranslation_found language msgid n context defaultPlural
    languageKey parameters disable table :
  msgid ≠ "" →
  resolveTranslations (translations language) (keyOf language languageKey)
    = Some table →
  truthy (lookupTranslated table (trim msgid) context) = true →
  getTranslation plurals language msgid n context defaultPlural languageKey
    parameters disable
  = ([], selectForm plurals language (keyOf language languageKey) (trim msgid) n
           parameters disable
           (unwrapVoidContext (lookupTranslated table (trim msgid) context))).
Proof.
  intros Hm Ht Hv. unfold getTranslation.
  rewrite (msgid_nonempty _ Hm), (resolveTranslations_source _ _ _ Ht).
  simpl. by rewrite Hv.
Qed.

Lemma NoMatch_notFound dict key msgid context :
  NoMatch dict key msgid context → notFound dict key msgid context.
Proof.
  unfold notFound.
  intros [Hk Hf | table Ht Hm | table e c Ht Hm -> Hc Hp].
  - unfold resolveLanguage. by rewrite Hk, Hf.
  - rewrite (resolveTranslations_source _ _ _ Ht). simpl.
    unfold lookupTranslated. rewrite Hm. by destruct context.
  - rewrite (resolveTranslations_source _ _ _ Ht). simpl.
    unfold lookupTranslated, readTable. rewrite Hm. simpl.
    destruct (truthy (entryValue e)) eqn:He; simpl.
    + rewrite bool_decide_eq_false_2 by done. simpl. by rewrite Hp.
    + done.
Qed.

(** The fallback as far as it goes: when nothing answers to the names of
    the request, neither an own property nor an inherited member, the call
    returns the interpolated untranslated string ([defaultPlural] or the
    msgid) and writes exactly one warning unless it is silent. *)
Lemma getTranslation_no_match language msgid n context defaultPlural
    languageKey parameters disable :
  msgid ≠ "" →
  NoMatch (translations language) (keyOf language languageKey) msgid
    context →
  getTranslation plurals language msgid n context defaultPlural languageKey
    parameters disable
  = (if isSilent language (keyOf language languageKey)
     then []
     else [fallbackWarning (translations language)
             (keyOf language languageKey) msgid context],
     Returned
       (interp language disable
          (untranslated plurals msgid n defaultPlural
             (keyOf language languageKey))
          parameters)).
Proof.
  intros Hm Hno. apply getTranslation_notFound; [done|].
  by apply NoMatch_notFound.
Qed.

(** C4. An empty msgid is answered by the empty string at once: no
    warning is written and the interpolator is not consulted, whatever
    the other arguments and the language object are. *)
Theorem getTranslation_empty_msgid language n context defaultPlural
    languageKey parameters disable :
  getTranslation plurals language "" n context defaultPlural languageKey
    parameters disable
  = ([], Returned "").
Proof. reflexivity. Qed.

(** Line 85: a string is interpolated and returned as it is. *)
Lemma selectForm_string language key msgid n parameters disable (s : string) :
  selectForm plurals language key msgid n parameters disable (VString s)
  = Returned (interp language disable s parameters).
Proof. reflexivity. Qed.

Lemma unwrap_truthy (v : Value) (forms : list string) :
  unwrapVoidContext v = VArray forms → truthy v = true.
Proof. destruct v; simpl; done. Qed.

Lemma truthy_messageValue (m : Message) :
  m ≠ MString "" → truthy (messageValue m) = true.
Proof.
  destruct m as [s|l]; simpl; [|done].
  intros Hs. rewrite bool_decide_eq_false_2; [done|]. by intros ->.
Qed.

Lemma applyContext_noContext (v : Value) context :
  noContext context → applyContext v context = v.
Proof.
  intros [-> | ->]; unfold applyContext; [done|].
  simpl. by rewrite andb_false_r.
Qed.

Lemma lookup_noContext (table : LanguageData) (key : string) context :
  noContext context →
  lookupTranslated table key context = readTable table key.
Proof. intros Hc. unfold lookupTranslated. by apply applyContext_noContext. Qed.

Lemma readTable_own (table : LanguageData) (key : string) (e : Entry) :
  table !! key = Some e → readTable table key = entryValue e.
Proof. intros He. unfold readTable. by rewrite He. Qed.

Lemma lookup_named (table : LanguageData) (key c : string) (e : Entry) :
  c ≠ "" →
  table !! key = Some e →
  truthy (entryValue e) = true →
  lookupTranslated table key (Some c) = getProp (entryValue e) c.
Proof.
  intros Hc He Ht. unfold lookupTranslated, applyContext.
  rewrite (readTable_own _ _ _ He), Ht.
  by rewrite bool_decide_eq_false_2.
Qed.




(** C2. When the resolved entry is a plural list whose element at the
    computed index is absent or the empty string, the call throws; the error
    names the trimmed key, the computed index, [language.current] and the
    count.  No warning is written and nothing is returned, for every language
    object, whatever its [silent] flag and its muted list. *)
Theorem malformed_plural_throws language msgid n context defaultPlural
    languageKey parameters disable table forms :
  msgid ≠ "" →
  resolveTranslations (translations language) (keyOf language languageKey)
    = Some table →
  unwrapVoidContext (lookupTranslated table (trim msgid) context)
    = VArray forms →
  forms !! pluralIndex plurals (keyOf language languageKey) n (VArray forms)
    = None
  ∨ forms !! pluralIndex plurals (keyOf language languageKey) n (VArray forms)
    = Some "" →
  getTranslation plurals language msgid n context defaultPlural languageKey
    parameters disable
  = ([], Thrown
           (trim msgid +:+ " "
            +:+ pretty (pluralIndex plurals (keyOf language languageKey) n
                          (VArray forms))
            +:+ " " +:+ current language +:+ " " +:+ showCount n)).
Proof.
  intros Hm Ht Hu Hbad.
  rewrite (getTranslation_found _ _ _ _ _ _ _ _ table Hm Ht)
    by (eapply unwrap_truthy; exact Hu).
  rewrite Hu. unfold selectForm, getIndex.
  by destruct Hbad as [-> | ->].
Qed.

(** C3, amended. The call is silent exactly when the language key is not
    empty and either [language.silent] is set or the key is muted; with the
    empty language key it is never silent.  Accordingly a call that finds no
    translation writes no warning exactly in that case. *)
Theorem warnings_suppressed_iff language msgid n context defaultPlural
    languageKey parameters disable :
  msgid ≠ "" →
  notFound (translations language) (keyOf language languageKey) msgid
    context →
  (isSilent language (keyOf language languageKey) = true
   ↔ keyOf language languageKey ≠ ""
     ∧ (silent language = true
        ∨ keyOf language languageKey ∈ muted language))
  ∧ (fst (getTranslation plurals language msgid n context defaultPlural
            languageKey parameters disable) = []
     ↔ keyOf language languageKey ≠ ""
       ∧ (silent language = true
          ∨ keyOf language languageKey ∈ muted language)).
Proof.
  intros Hm Hnf.
  assert (Hs : isSilent language (keyOf language languageKey) = true
     ↔ keyOf language languageKey ≠ ""
       ∧ (silent language = true
          ∨ keyOf language languageKey ∈ muted language)).
  { unfold isSilent. case_bool_decide as Hk; simpl.
    - split; [done|]. by intros [? _].
    - rewrite orb_true_iff, bool_decide_eq_true. by split; [|intros [_ ?]]. }
  split; [exact Hs|].
  rewrite (getTranslation_notFound language msgid n context defaultPlural
             languageKey parameters disable Hm Hnf).
  rewrite <- Hs. simpl.
  by destruct (isSilent language (keyOf language languageKey)).
Qed.


(** C6, amended. When no translation is found, the string that is
    interpolated (handed to [language.interpolate] with the parameters, when
    there are parameters) and returned is [defaultPlural] if it is provided,
    is not the empty string, and the plural index of the language key and
    count is positive; it is the original msgid otherwise, also for a
    provided default plural that is the empty string. *)
Theorem fallback_value language msgid n context defaultPlural languageKey
    parameters disable :
  msgid ≠ "" →
  notFound (translations language) (keyOf language languageKey) msgid
    context →
  (∀ d, defaultPlural = Some d → d ≠ "" →
        (0 < plurals (keyOf language languageKey) n)%nat →
        snd (getTranslation plurals language msgid n context defaultPlural
               languageKey parameters disable)
        = Returned
            match parameters with
            | Some p => interpolate language d p disable
            | None => d
            end)
  ∧ (defaultPlural = None ∨ defaultPlural = Some ""
     ∨ plurals (keyOf language languageKey) n = 0%nat →
     snd (getTranslation plurals language msgid n context defaultPlural
            languageKey parameters disable)
     = Returned
         match parameters with
         | Some p => interpolate language msgid p disable
         | None => msgid
         end).
Proof.
  intros Hm Hnf.
  rewrite (getTranslation_notFound language msgid n context defaultPlural
             languageKey parameters disable Hm Hnf).
  simpl. unfold untranslated. split.
  - intros d -> Hd Hpos. rewrite bool_decide_eq_false_2 by done. simpl.
    apply Nat.ltb_lt in Hpos. by rewrite Hpos.
  - intros [-> | [-> | Hz]]; [done | done |].
    destruct defaultPlural as [d|]; [|done].
    rewrite Hz. by rewrite andb_false_r.
Qed.


(** C8, amended. For a resolved plural list with exactly one element: when
    the count is 1 the index is 0 whatever the plural rule computes, and the
    element, if it is not the empty string, is interpolated and returned;
    for every other count the index is the one the plural rule computes, so a
    non-zero index makes the call throw. *)
Theorem single_form_override language msgid n context defaultPlural
    languageKey parameters disable table x :
  msgid ≠ "" →
  resolveTranslations (translations language) (keyOf language languageKey)
    = Some table →
  unwrapVoidContext (lookupTranslated table (trim msgid) context)
    = VArray [x] →
  (n = Some 1 →
   pluralIndex plurals (keyOf language languageKey) n (VArray [x]) = 0%nat
   ∧ (x ≠ "" →
      getTranslation plurals language msgid n context defaultPlural
        languageKey parameters disable
      = ([], Returned (interp language disable x parameters))))
  ∧ (n ≠ Some 1 →
     pluralIndex plurals (keyOf language languageKey) n (VArray [x])
     = plurals (keyOf language languageKey) n
     ∧ (plurals (keyOf language languageKey) n ≠ 0%nat →
        getTranslation plurals language msgid n context defaultPlural
          languageKey parameters disable
        = ([], Thrown
                 (errorMessage language (trim msgid)
                    (plurals (keyOf language languageKey) n) n)))).
Proof.
  intros Hm Ht Hu.
  rewrite (getTranslation_found _ _ _ _ _ _ _ _ table Hm Ht)
    by (eapply unwrap_truthy; exact Hu).
  rewrite Hu. split.
  - intros ->. split; [done|]. intros Hx. simpl.
    unfold pluralIndex. simpl. by rewrite bool_decide_eq_false_2.
  - intros Hn.
    assert (Hi : pluralIndex plurals (keyOf language languageKey) n
                   (VArray [x]) = plurals (keyOf language languageKey) n).
    { unfold pluralIndex. simpl. by rewrite bool_decide_eq_false_2. }
    split; [exact Hi|]. intros Hnz. simpl. rewrite Hi.
    destruct (plurals (keyOf language languageKey) n) as [|k]; [done|].
    done.
Qed.

(** C9, amended. When the trimmed msgid is not empty and the resolved table
    yields a translation for the trimmed key and the requested context, a
    msgid with surrounding white space is answered exactly like the trimmed
    msgid: same warnings, same returned string or thrown error. *)
Theorem trimmed_msgid_same_result language msgid n context defaultPlural
    languageKey parameters disable table :
  trim msgid ≠ "" →
  resolveTranslations (translations language) (keyOf language languageKey)
    = Some table →
  truthy (lookupTranslated table (trim msgid) context) = true →
  getTranslation plurals language msgid n context defaultPlural languageKey
    parameters disable
  = getTranslation plurals language (trim msgid) n context defaultPlural
      languageKey parameters disable.
Proof.
  intros Hne Ht Hv.
  assert (Hm : msgid ≠ "") by (intros ->; by apply Hne).
  rewrite (getTranslation_found _ _ _ _ _ _ _ _ table Hm Ht Hv).
  rewrite (getTranslation_found _ (trim msgid) _ _ _ _ _ _ table Hne Ht)
    by (by rewrite trim_idempotent).
  by rewrite trim_idempotent.
Qed.

(** C10. The [silent] flag and the muted list never change the outcome of a
    call: with any other warning settings the same string is returned or the
    same error is thrown. *)
Theorem outcome_independent_of_warnings language mutedKeys quiet msgid n
    context defaultPlural languageKey parameters disable :
  snd (getTranslation plurals (withWarnings language mutedKeys quiet) msgid n
         context defaultPlural languageKey parameters disable)
  = snd (getTranslation plurals language msgid n context defaultPlural
           languageKey parameters disable).
Proof.
  unfold getTranslation. simpl.
  case_bool_decide; [done|].
  destruct (resolveLanguage _ _) as [source|]; [|done].
  by destruct (truthy _).
Qed.

(** C1, where the code departs from it. A msgid that has no entry in the
    resolved table but names a member that the table inherits (as
    ["constructor"] does) is not answered by the fallback: the inherited
    built-in object is taken for the translation, it has no property at the
    plural index, and the call throws. *)
Theorem inherited_msgid_throws language msgid n context defaultPlural
    languageKey parameters disable table (b : Builtin) :
  msgid ≠ "" →
  resolveTranslations (translations language) (keyOf language languageKey)
    = Some table →
  table !! trim msgid = None →
  objectMember (trim msgid) = Some b →
  noContext context →
  getTranslation plurals language msgid n context defaultPlural languageKey
    parameters disable
  = ([], Thrown
           (errorMessage language (trim msgid)
              (pluralIndex plurals (keyOf language languageKey) n
                 (VBuiltin b)) n)).
Proof.
  intros Hm Ht He Hb Hc.
  assert (Hl : lookupTranslated table (trim msgid) context = VBuiltin b).
  { rewrite (lookup_noContext _ _ _ Hc). unfold readTable.
    by rewrite He, Hb. }
  rewrite (getTranslation_found _ _ _ _ _ _ _ _ table Hm Ht)
    by (by rewrite Hl).
  by rewrite Hl.
Qed.

End Properties.

(** ** The properties on sample data *)

Section SampleProperties.

#[local] Existing Instance sampleRealm.

(** The fallback at work: no table for the key "xx_YY" nor for the family
    "xx"; no key "Apple" in the French table; no context "shelf" under
    "Hello". *)
Lemma getTranslation_no_match_example :
  getTranslation binaryRule (sampleLanguage "fr_FR" frDict [] false)
    "Hello" (Some 1) None None (Some "xx_YY") None false
  = (["No translations found for xx_YY"], Returned "Hello")
  ∧ getTranslation binaryRule (sampleLanguage "fr_FR" frDict [] false)
      " Apple" (Some 3) None (Some "Apples") None None false
    = (["Untranslated fr_FR key found: Apple"], Returned "Apples")
  ∧ getTranslation binaryRule (sampleLanguage "fr_FR" frDict [] true)
      "Hello" (Some 1) (Some "shelf") None None (Some ∅) false
    = ([], Returned "<esc>Hello").
Proof.
  split; [|split].
  - apply (getTranslation_no_match (realm := sampleRealm) binaryRule
             (sampleLanguage "fr_FR" frDict [] false)
             "Hello" (Some 1) None None (Some "xx_YY") None false).
    + discriminate.
    + apply NoLanguage; reflexivity.
  - apply (getTranslation_no_match (realm := sampleRealm) binaryRule
             (sampleLanguage "fr_FR" frDict [] false)
             " Apple" (Some 3) None (Some "Apples") None None false).
    + discriminate.
    + apply (NoKey _ _ _ _ frTable); reflexivity.
  - apply (getTranslation_no_match (realm := sampleRealm) binaryRule
             (sampleLanguage "fr_FR" frDict [] true)
             "Hello" (Some 1) (Some "shelf") None None (Some ∅) false).
    + discriminate.
    + apply (NoContext _ _ _ _ frTable
               (EMessage (MArray ["Bonjour"; "Bonjours"])) "shelf");
        [reflexivity | reflexivity | reflexivity | discriminate | reflexivity].
Defined.

(** C1, the failing input: "constructor" is no key of the French table, and
    every object inherits a member of that name, a function of length 1. *)
Lemma inherited_msgid_throws_witness :
  frTable !! "constructor" = None
  ∧ getTranslation binaryRule (sampleLanguage "fr_FR" frDict [] false)
      "constructor" (Some 1) None None None None false
    = ([], Thrown "constructor 0 fr_FR 1").
Proof.
  split; [reflexivity|].
  apply (inherited_msgid_throws (realm := sampleRealm) binaryRule
           (sampleLanguage "fr_FR" frDict [] false)
           "constructor" (Some 1) None None None None false frTable
           (functionObject "Object" 1)).
  - discriminate.
  - reflexivity.
  - reflexivity.
  - reflexivity.
  - by left.
Defined.

(** C2 at work: the second form of "Hole" is empty; the language is silent
    and muted, and the call throws all the same. *)
Lemma malformed_plural_throws_witness :
  getTranslation binaryRule (sampleLanguage "fr_FR" frDict ["fr_FR"] true)
    "Hole" (Some 5) None None None None false
  = ([], Thrown "Hole 1 fr_FR 5").
Proof.
  apply (malformed_plural_throws (realm := sampleRealm) binaryRule
           (sampleLanguage "fr_FR" frDict ["fr_FR"] true)
           "Hole" (Some 5) None None None None false frTable ["un"; ""]).
  - discriminate.
  - reflexivity.
  - reflexivity.
  - right. reflexivity.
Defined.

(** C3 refuted as stated: with the empty language key the call is not
    silent although [language.silent] is set, and the warning is written. *)
Lemma silent_flag_ignored_for_empty_key :
  silent (sampleLanguage "" frDict [] true) = true
  ∧ isSilent (sampleLanguage "" frDict [] true) "" = false
  ∧ getTranslation binaryRule (sampleLanguage "" frDict [] true)
      "Hello" (Some 1) None None None None false
    = (["No translations found for "], Returned "Hello").
Proof. repeat split. Qed.

(** C3, amended, at work: a muted key suppresses the warning. *)
Lemma warnings_suppressed_iff_witness :
  fst (getTranslation binaryRule
         (sampleLanguage "fr_FR" frDict ["xx_YY"] false)
         "Hello" (Some 1) None None (Some "xx_YY") None false) = []
  ↔ "xx_YY" ≠ "" ∧ (false = true ∨ "xx_YY" ∈ ["xx_YY"]).
Proof.
  apply (warnings_suppressed_iff (realm := sampleRealm) binaryRule
           (sampleLanguage "fr_FR" frDict ["xx_YY"] false)
           "Hello" (Some 1) None None (Some "xx_YY") None false).
  - discriminate.
  - exact I.
Defined.


(** C6 refuted as stated: a default plural is provided, the empty string,
    and the plural index is positive; the call answers with the interpolated
    msgid, not with the interpolated default plural. *)
Lemma empty_default_plural_ignored :
  binaryRule "fr_FR" (Some 2) = 1%nat
  ∧ frTable !! "Apple" = None
  ∧ snd (getTranslation binaryRule (sampleLanguage "fr_FR" frDict [] false)
           "Apple" (Some 2) None (Some "") None (Some ∅) false)
    = Returned "<esc>Apple"
  ∧ snd (getTranslation binaryRule (sampleLanguage "fr_FR" frDict [] false)
           "Apple" (Some 2) None (Some "") None (Some ∅) false)
    ≠ Returned (markInterpolate "" ∅ false).
Proof. repeat split. discriminate. Qed.

(** C6, amended, at work: no table for "xx_YY"; with a count of 2 the
    default plural is interpolated and returned, with a count of 1 the
    msgid. *)
Lemma fallback_value_witness :
  snd (getTranslation binaryRule (sampleLanguage "fr_FR" frDict [] false)
         "Apple" (Some 2) None (Some "Apples") (Some "xx_YY") (Some ∅) false)
  = Returned "<esc>Apples"
  ∧ snd (getTranslation binaryRule (sampleLanguage "fr_FR" frDict [] false)
           "Apple" (Some 1) None (Some "Apples") (Some "xx_YY") (Some ∅) true)
    = Returned "<raw>Apple".
Proof.
  split.
  - apply (proj1 (fallback_value (realm := sampleRealm) binaryRule
                    (sampleLanguage "fr_FR" frDict [] false)
                    "Apple" (Some 2) None (Some "Apples") (Some "xx_YY")
                    (Some ∅) false ltac:(discriminate) I) "Apples");
      [reflexivity | discriminate | repeat constructor].
  - apply (proj2 (fallback_value (realm := sampleRealm) binaryRule
                    (sampleLanguage "fr_FR" frDict [] false)
                    "Apple" (Some 1) None (Some "Apples") (Some "xx_YY")
                    (Some ∅) true ltac:(discriminate) I)).
    right. right. reflexivity.
Defined.



(** C8 refuted as stated: the single element of "Blank" is the empty
    string, and with a count of 1 the call throws. *)
Lemma empty_single_form_throws :
  frTable !! "Blank" = Some (EMessage (MArray [""]))
  ∧ getTranslation shiftedRule (sampleLanguage "fr_FR" frDict [] false)
      "Blank" (Some 1) None None None None false
    = ([], Thrown "Blank 0 fr_FR 1").
Proof. repeat split. Qed.

(** C8, amended, at work: the rule gives index 1 for a count of 1, and the
    single form is returned; with a count of 2 the rule's index 2 is used. *)
Lemma single_form_override_witness :
  shiftedRule "fr_FR" (Some 1) = 1%nat
  ∧ getTranslation shiftedRule (sampleLanguage "fr_FR" frDict [] false)
      "One" (Some 1) None None None None false
    = ([], Returned "only form")
  ∧ getTranslation shiftedRule (sampleLanguage "fr_FR" frDict [] false)
      "One" (Some 2) None None None None false
    = ([], Thrown "One 2 fr_FR 2").
Proof.
  split; [reflexivity|]. split.
  - apply (proj1 (single_form_override (realm := sampleRealm) shiftedRule
                    (sampleLanguage "fr_FR" frDict [] false)
                    "One" (Some 1) None None None None false frTable
                    "only form" ltac:(discriminate) eq_refl eq_refl));
      [reflexivity | discriminate].
  - apply (proj2 (single_form_override (realm := sampleRealm) shiftedRule
                    (sampleLanguage "fr_FR" frDict [] false)
                    "One" (Some 2) None None None None false frTable
                    "only form" ltac:(discriminate) eq_refl eq_refl));
      discriminate.
Defined.

(** C9 refuted as stated: the table contains the trimmed key "Bank", the
    context "river" is not among its contexts, and the two calls return
    different strings. *)
Lemma untrimmed_msgid_in_fallback :
  trim "  Bank " = "Bank"
  ∧ is_Some (frTable !! "Bank")
  ∧ snd (getTranslation binaryRule (sampleLanguage "fr_FR" frDict [] false)
           "  Bank " (Some 1) (Some "river") None None None false)
    = Returned "  Bank "
  ∧ snd (getTranslation binaryRule (sampleLanguage "fr_FR" frDict [] false)
           "Bank" (Some 1) (Some "river") None None None false)
    = Returned "Bank"
  ∧ snd (getTranslation binaryRule (sampleLanguage "fr_FR" frDict [] false)
           "  Bank " (Some 1) (Some "river") None None None false)
    ≠ snd (getTranslation binaryRule (sampleLanguage "fr_FR" frDict [] false)
             (trim "  Bank ") (Some 1) (Some "river") None None None false).
Proof. repeat split; [by eexists | discriminate]. Qed.

(** C9, amended, at work: the spec's msgid with surrounding spaces, and
    "Hello" between two no-break spaces. *)
Lemma trimmed_msgid_same_result_witness :
  getTranslation binaryRule (sampleLanguage "fr_FR" frDict [] false)
    "  Hello  " (Some 2) None None None None false
  = getTranslation binaryRule (sampleLanguage "fr_FR" frDict [] false)
      "Hello" (Some 2) None None None None false
  ∧ getTranslation binaryRule (sampleLanguage "fr_FR" frDict [] false)
      paddedHello (Some 2) None None None None false
    = getTranslation binaryRule (sampleLanguage "fr_FR" frDict [] false)
        "Hello" (Some 2) None None None None false.
Proof.
  split.
  - apply (trimmed_msgid_same_result (realm := sampleRealm) binaryRule
             (sampleLanguage "fr_FR" frDict [] false)
             "  Hello  " (Some 2) None None None None false frTable).
    + discriminate.
    + reflexivity.
    + reflexivity.
  - apply (trimmed_msgid_same_result (realm := sampleRealm) binaryRule
             (sampleLanguage "fr_FR" frDict [] false)
             paddedHello (Some 2) None None None None false frTable).
    + discriminate.
    + reflexivity.
    + reflexivity.
Defined.

(** A second way C9 fails as stated: a msgid of white space only is trimmed
    to the empty key, which the table may contain, while the empty msgid
    itself is answered by the empty string. *)
Lemma blank_msgid_reads_empty_key :
  trim "   " = ""
  ∧ is_Some (frTable !! "")
  ∧ getTranslation binaryRule (sampleLanguage "fr_FR" frDict [] false)
      "   " (Some 1) None None None None false
    = ([], Returned "Project-Id-Version: demo")
  ∧ getTranslation binaryRule (sampleLanguage "fr_FR" frDict [] false)
      (trim "   ") (Some 1) None None None None false
    = ([], Returned "").
Proof. repeat split. by eexists. Qed.

(** ** The scenarios of the specification *)

Example scenario_plural :
  ngettext binaryRule (sampleLanguage "fr_FR" frDict [] false)
    "Hello" "Hellos" 2 None false
  = ([], Returned "Bonjours").
Proof. reflexivity. Qed.

Example scenario_void_context :
  gettext binaryRule (sampleLanguage "fr_FR" frDict [] false) "Bye" None false
  = ([], Returned "Au revoir").
Proof. reflexivity. Qed.

Example scenario_missing_language :
  getTranslation binaryRule (sampleLanguage "fr_FR" frDict [] false)
    "Hello" (Some 1) None None (Some "xx_YY") None false
  = (["No translations found for xx_YY"], Returned "Hello").
Proof. reflexivity. Qed.

Example scenario_context :
  pgettext binaryRule (sampleLanguage "fr_FR" frDict [] false)
    "shelf" "Bank" None false
  = ([], Returned "shelf-context form")
  ∧ npgettext binaryRule (sampleLanguage "fr_FR" frDict [] false)
      "river" "Bank" "Banks" 2 None false
    = (["Untranslated fr_FR key found: Bank (with context: river)"],
       Returned "Banks").
Proof. split; reflexivity. Qed.

Example scenario_family :
  gettext binaryRule (sampleLanguage "de_DE" deDict [] false) "Hello" None false
  = ([], Returned "Hallo").
Proof. reflexivity. Qed.

End SampleProperties.

(** * Further properties of the resolver and of its wrappers *)

Section FurtherProperties.

Context {realm : Realm}.

(** The plural rules: [plurals.getTranslationIndex]. *)
Variable plurals : string → option Z → nat.

Implicit Types (language : Language) (msgid : string) (n : option Z).
Implicit Types (context defaultPlural languageKey : option string).
Implicit Types (parameters : option Parameters) (disable : bool).

Local Abbreviation keyOf language languageKey :=
  (default (current language) languageKey).




(** X4. The context "length" requested for a translation that is a
    non-empty string or a non-empty plural list reads the length of that
    string or list, a number, and the call throws: the number is neither a
    string nor a plural list. *)
Theorem length_context_throws language msgid n defaultPlural languageKey
    parameters disable table (m : Message) :
  msgid ≠ "" →
  resolveTranslations (translations language) (keyOf language languageKey)
    = Some table →
  table !! trim msgid = Some (EMessage m) →
  m ≠ MString "" →
  m ≠ MArray [] →
  getTranslation plurals language msgid n (Some "length") defaultPlural
    languageKey parameters disable
  = ([], Thrown
           (errorMessage language (trim msgid)
              (plurals (keyOf language languageKey) n) n)).
Proof.
  intros Hm Ht He Hs Ha.
  assert (Hl : ∃ k, lookupTranslated table (trim msgid) (Some "length")
                    = VNumber (S k)).
  { assert (Hc : "length" ≠ "") by discriminate.
    rewrite (lookup_named _ _ _ _ Hc He)
      by (by apply truthy_messageValue).
    destruct m as [[|a s]|[|x l]]; simpl; try done; by eexists. }
  destruct Hl as [k Hl].
  rewrite (getTranslation_found plurals _ _ _ _ _ _ _ _ table Hm Ht)
    by (by rewrite Hl).
  by rewrite Hl.
Qed.

(** X5. Without a parameters object the interpolator is never consulted:
    the call gives the same warnings and the same outcome with any other
    interpolator and any escaping flag. *)
Theorem no_parameters_no_interpolation language
    (f : string → Parameters → bool → string) msgid n context defaultPlural
    languageKey disable disable' :
  getTranslation plurals (withInterpolate language f) msgid n context
    defaultPlural languageKey None disable'
  = getTranslation plurals language msgid n context defaultPlural languageKey
      None disable.
Proof.
  unfold getTranslation. simpl.
  case_bool_decide; [done|].
  destruct (resolveLanguage _ _) as [source|]; [|done].
  destruct (truthy _); [|done]. simpl.
  by destruct (unwrapVoidContext _).
Qed.

(** X6. The call reads the dictionary at the language key and at its family
    prefix only: a dictionary that agrees with the given one at these two
    keys gives the same warnings and the same outcome, whatever tables it
    holds for other languages. *)
Theorem other_languages_irrelevant language (dict : Translations) msgid n
    context defaultPlural languageKey parameters disable :
  dict !! keyOf language languageKey
    = translations language !! keyOf language languageKey →
  dict !! splitFirst (keyOf language languageKey)
    = translations language !! splitFirst (keyOf language languageKey) →
  getTranslation plurals (withTranslations language dict) msgid n context
    defaultPlural languageKey parameters disable
  = getTranslation plurals language msgid n context defaultPlural languageKey
      parameters disable.
Proof.
  intros Hk Hf. unfold getTranslation. simpl.
  assert (Hr : resolveLanguage dict (keyOf language languageKey)
               = resolveLanguage (translations language)
                   (keyOf language languageKey)).
  { unfold resolveLanguage, readLanguage. by rewrite Hk, Hf. }
  by rewrite Hr.
Qed.

(** X7. The call reads the resolved table at the trimmed msgid only:
    replacing the table of the language key by one that agrees with the
    resolved table at that key changes neither the warnings nor the
    outcome. *)
Theorem other_msgids_irrelevant language (table table' : LanguageData) msgid
    n context defaultPlural languageKey parameters disable :
  resolveTranslations (translations language) (keyOf language languageKey)
    = Some table →
  table' !! trim msgid = table !! trim msgid →
  getTranslation plurals
    (withTranslations language
       (<[keyOf language languageKey := table']> (translations language)))
    msgid n context defaultPlural languageKey parameters disable
  = getTranslation plurals language msgid n context defaultPlural languageKey
      parameters disable.
Proof.
  intros Ht Hk. unfold getTranslation. simpl.
  rewrite (resolveTranslations_source _ _ _ Ht).
  unfold resolveLanguage, readLanguage. rewrite lookup_insert_eq.
  unfold lookupIn, lookupTranslated, readTable. by rewrite Hk.
Qed.

(** X8. A call writes at most one warning, and it writes none when it
    throws: a warning only ever accompanies a returned fallback. *)
Theorem at_most_one_warning language msgid n context defaultPlural
    languageKey parameters disable :
  (length (fst (getTranslation plurals language msgid n context defaultPlural
                  languageKey parameters disable)) ≤ 1)%nat
  ∧ ∀ e, snd (getTranslation plurals language msgid n context defaultPlural
                languageKey parameters disable) = Thrown e →
         fst (getTranslation plurals language msgid n context defaultPlural
                languageKey parameters disable) = [].
Proof.
  unfold getTranslation.
  case_bool_decide; [split; [simpl; lia | done]|].
  destruct (resolveLanguage _ _) as [source|].
  - destruct (truthy _); simpl.
    + split; [lia | done].
    + split; [|done]. destruct (isSilent _ _); simpl; lia.
  - simpl. split; [|done]. destruct (isSilent _ _); simpl; lia.
Qed.

Lemma getTranslation_empty_context language msgid n defaultPlural
    languageKey parameters disable :
  getTranslation plurals language msgid n (Some "") defaultPlural languageKey
    parameters disable
  = getTranslation plurals language msgid n None defaultPlural languageKey
      parameters disable.
Proof.
  unfold getTranslation.
  case_bool_decide; [done|].
  destruct (resolveLanguage _ _) as [source|]; [|done]. cbv zeta.
  assert (Hl : lookupIn source (trim msgid) (Some "")
               = lookupIn source (trim msgid) None).
  { destruct source; unfold lookupIn, lookupTranslated;
      by rewrite (applyContext_noContext _ (Some "")) by (by right). }
  by rewrite Hl.
Qed.

(** X9. The empty string as a context is no context at all: [pgettext] with
    the empty context is [gettext], and [npgettext] with the empty context
    is [ngettext], warnings included. *)
Theorem empty_context_is_no_context language (msgid plural : string) (k : Z)
    parameters disable :
  pgettext plurals language "" msgid parameters disable
  = gettext plurals language msgid parameters disable
  ∧ npgettext plurals language "" msgid plural k parameters disable
    = ngettext plurals language msgid plural k parameters disable.
Proof.
  unfold pgettext, gettext, npgettext, ngettext.
  split; apply getTranslation_empty_context.
Qed.

Lemma getTranslation_same_untranslated language msgid n context
    defaultPlural defaultPlural' languageKey parameters disable :
  untranslated plurals msgid n defaultPlural (keyOf language languageKey)
  = untranslated plurals msgid n defaultPlural' (keyOf language languageKey) →
  getTranslation plurals language msgid n context defaultPlural languageKey
    parameters disable
  = getTranslation plurals language msgid n context defaultPlural'
      languageKey parameters disable.
Proof. intros Hu. unfold getTranslation. cbv zeta. by rewrite Hu. Qed.

(** X10. When the plural rule gives index 0 for a count of 1 in the current
    language, the plural wrappers called with a count of 1 are the singular
    wrappers: the default plural is never used, not even as a fallback. *)
Theorem count_one_is_singular language (context msgid plural : string)
    parameters disable :
  plurals (current language) (Some 1) = 0%nat →
  ngettext plurals language msgid plural 1 parameters disable
  = gettext plurals language msgid parameters disable
  ∧ npgettext plurals language context msgid plural 1 parameters disable
    = pgettext plurals language context msgid parameters disable.
Proof.
  intros Hz.
  assert (Hu : untranslated plurals msgid (Some 1) (Some plural)
                 (current language)
               = untranslated plurals msgid (Some 1) None (current language)).
  { unfold untranslated. rewrite Hz. by rewrite andb_false_r. }
  unfold ngettext, gettext, npgettext, pgettext.
  split; by apply getTranslation_same_untranslated.
Qed.

(** X11. When a translation is found, the default plural plays no part: the
    call gives the same warnings and outcome for any two default plurals. *)
Theorem found_ignores_defaultPlural language msgid n context defaultPlural
    defaultPlural' languageKey parameters disable table :
  msgid ≠ "" →
  resolveTranslations (translations language) (keyOf language languageKey)
    = Some table →
  truthy (lookupTranslated table (trim msgid) context) = true →
  getTranslation plurals language msgid n context defaultPlural languageKey
    parameters disable
  = getTranslation plurals language msgid n context defaultPlural'
      languageKey parameters disable.
Proof.
  intros Hm Ht Hv.
  by rewrite !(getTranslation_found plurals _ _ _ _ _ _ _ _ table Hm Ht Hv).
Qed.


(** X14. The muted list matters only through the membership of the language
    key of the call: muting or unmuting other languages, reordering the list
    or repeating a key changes neither the warnings nor the outcome. *)
Theorem muted_matters_by_membership language (mutedKeys : list string) msgid
    n context defaultPlural languageKey parameters disable :
  (keyOf language languageKey ∈ mutedKeys
   ↔ keyOf language languageKey ∈ muted language) →
  getTranslation plurals (withWarnings language mutedKeys (silent language))
    msgid n context defaultPlural languageKey parameters disable
  = getTranslation plurals language msgid n context defaultPlural languageKey
      parameters disable.
Proof.
  intros Hiff.
  assert (Hs : isSilent (withWarnings language mutedKeys (silent language))
                 (keyOf language languageKey)
               = isSilent language (keyOf language languageKey)).
  { unfold isSilent. simpl. by rewrite (bool_decide_ext _ _ Hiff). }
  unfold getTranslation. simpl. simpl in Hs. by rewrite Hs.
Qed.

(** X15. The parameters object and the escaping flag never decide which
    branch a call takes: two calls that differ in them only write the same
    warnings and throw the same errors. *)
Theorem parameters_do_not_steer language msgid n context defaultPlural
    languageKey parameters parameters' disable disable' :
  fst (getTranslation plurals language msgid n context defaultPlural
         languageKey parameters disable)
  = fst (getTranslation plurals language msgid n context defaultPlural
           languageKey parameters' disable')
  ∧ ∀ e,
      snd (getTranslation plurals language msgid n context defaultPlural
             languageKey parameters disable) = Thrown e
      ↔ snd (getTranslation plurals language msgid n context defaultPlural
               languageKey parameters' disable') = Thrown e.
Proof.
  unfold getTranslation.
  case_bool_decide; [done|].
  destruct (resolveLanguage _ _) as [source|]; [|done].
  destruct (truthy _); [|done]. simpl. split; [done|]. intros e.
  unfold selectForm.
  destruct (unwrapVoidContext _); try done;
    destruct (negb (truthy _)); try done;
    by destruct (getIndex _ _).
Qed.









(** X17. A table stored under the language key itself shadows the family
    table entirely: the call gives the same warnings and outcome whatever
    the rest of the dictionary holds, so a msgid missing from the regional
    table is never looked up in the family table. *)
Theorem regional_table_shadows_family language (dict : Translations)
    (table : LanguageData) msgid n context defaultPlural languageKey
    parameters disable :
  translations language !! keyOf language languageKey = Some table →
  dict !! keyOf language languageKey = Some table →
  getTranslation plurals (withTranslations language dict) msgid n context
    defaultPlural languageKey parameters disable
  = getTranslation plurals language msgid n context defaultPlural languageKey
      parameters disable.
Proof.
  intros Hk Hd. unfold getTranslation, resolveLanguage, readLanguage. simpl.
  simpl in Hk, Hd. by rewrite Hk, Hd.
Qed.

(** X18. [gettext] is the identity on what is not translated: called
    without parameters on a msgid for which nothing is found, it returns the
    msgid exactly as given, surrounding white space included. *)
Theorem gettext_untranslated_identity language msgid disable :
  notFound (translations language) (current language) msgid None →
  snd (gettext plurals language msgid None disable) = Returned msgid.
Proof.
  intros Hnf. unfold gettext.
  destruct (decide (msgid = "")) as [-> | Hm]; [done|].
  by rewrite (getTranslation_notFound plurals language msgid (Some 1) None
                None None None disable Hm Hnf).
Qed.

End FurtherProperties.

(** ** The further properties on sample data *)

Section FurtherSampleProperties.

#[local] Existing Instance sampleRealm.




(** X4 at work: the context "length" against the plural list of "Hello". *)
Lemma length_context_throws_witness :
  getTranslation binaryRule (sampleLanguage "fr_FR" frDict [] false)
    "Hello" (Some 2) (Some "length") None None None false
  = ([], Thrown "Hello 1 fr_FR 2").
Proof.
  apply (length_context_throws (realm := sampleRealm) binaryRule
           (sampleLanguage "fr_FR" frDict [] false)
           "Hello" (Some 2) None None None false frTable
           (MArray ["Bonjour"; "Bonjours"])).
  - discriminate.
  - reflexivity.
  - reflexivity.
  - discriminate.
  - discriminate.
Defined.

(** X6 at work: adding a French table changes nothing for "de_DE". *)
Lemma other_languages_irrelevant_witness :
  getTranslation binaryRule
    (withTranslations (sampleLanguage "de_DE" deDict [] false)
       (<["fr_FR" := frTable]> deDict))
    "Hello" (Some 1) None None None None false
  = getTranslation binaryRule (sampleLanguage "de_DE" deDict [] false)
      "Hello" (Some 1) None None None None false.
Proof.
  apply (other_languages_irrelevant (realm := sampleRealm) binaryRule
           (sampleLanguage "de_DE" deDict [] false)
           (<["fr_FR" := frTable]> deDict)
           "Hello" (Some 1) None None None None false); reflexivity.
Defined.

(** X7 at work: a table that keeps the entry of "Hello" only. *)
Lemma other_msgids_irrelevant_witness :
  getTranslation binaryRule
    (withTranslations (sampleLanguage "fr_FR" frDict [] false)
       (<["fr_FR" := {[ "Hello" := EMessage (MArray ["Bonjour"; "Bonjours"]) ]}]>
          frDict))
    " Hello" (Some 2) None None None None false
  = getTranslation binaryRule (sampleLanguage "fr_FR" frDict [] false)
      " Hello" (Some 2) None None None None false.
Proof.
  apply (other_msgids_irrelevant (realm := sampleRealm) binaryRule
           (sampleLanguage "fr_FR" frDict [] false) frTable
           {[ "Hello" := EMessage (MArray ["Bonjour"; "Bonjours"]) ]}
           " Hello" (Some 2) None None None None false); reflexivity.
Defined.

(** X10 at work: under the binary rule, for an untranslated msgid. *)
Lemma count_one_is_singular_witness :
  ngettext binaryRule (sampleLanguage "fr_FR" frDict [] false)
    "Apple" "Apples" 1 None false
  = gettext binaryRule (sampleLanguage "fr_FR" frDict [] false)
      "Apple" None false
  ∧ npgettext binaryRule (sampleLanguage "fr_FR" frDict [] false)
      "shelf" "Apple" "Apples" 1 None false
    = pgettext binaryRule (sampleLanguage "fr_FR" frDict [] false)
        "shelf" "Apple" None false.
Proof.
  apply (count_one_is_singular (realm := sampleRealm) binaryRule
           (sampleLanguage "fr_FR" frDict [] false)
           "shelf" "Apple" "Apples" None false).
  reflexivity.
Defined.

(** X11 at work: "Hello" is found, with or without a default plural. *)
Lemma found_ignores_defaultPlural_witness :
  getTranslation binaryRule (sampleLanguage "fr_FR" frDict [] false)
    "Hello" (Some 2) None (Some "Hellos") None None false
  = getTranslation binaryRule (sampleLanguage "fr_FR" frDict [] false)
      "Hello" (Some 2) None None None None false.
Proof.
  apply (found_ignores_defaultPlural (realm := sampleRealm) binaryRule
           (sampleLanguage "fr_FR" frDict [] false)
           "Hello" (Some 2) None (Some "Hellos") None None None false frTable).
  - discriminate.
  - reflexivity.
  - reflexivity.
Defined.



(** X14 at work: muting German, twice, changes nothing for French. *)
Lemma muted_matters_by_membership_witness :
  getTranslation binaryRule
    (withWarnings (sampleLanguage "fr_FR" frDict [] false) ["de"; "de"] false)
    "Apple" (Some 1) None None None None false
  = getTranslation binaryRule (sampleLanguage "fr_FR" frDict [] false)
      "Apple" (Some 1) None None None None false.
Proof.
  apply (muted_matters_by_membership (realm := sampleRealm) binaryRule
           (sampleLanguage "fr_FR" frDict [] false) ["de"; "de"]
           "Apple" (Some 1) None None None None false).
  simpl. split; intros H.
  - apply elem_of_cons in H as [H | H]; [discriminate|].
    apply elem_of_cons in H as [H | H]; [discriminate|]. exact H.
  - by apply elem_of_nil in H.
Defined.

(** X17 at work: "Shelf" is in the table of "de" and not in the table of
    "de_AT"; without the table of "de" the call for "de_AT" is the same. *)
Lemma regional_table_shadows_family_witness :
  getTranslation binaryRule
    (withTranslations (sampleLanguage "de_AT" ctxDict [] false)
       {[ "de_AT" := {[ "Hello" := EMessage (MString "Servus") ]} ]})
    "Shelf" (Some 1) (Some "shelf") None None None false
  = getTranslation binaryRule (sampleLanguage "de_AT" ctxDict [] false)
      "Shelf" (Some 1) (Some "shelf") None None None false.
Proof.
  apply (regional_table_shadows_family (realm := sampleRealm) binaryRule
           (sampleLanguage "de_AT" ctxDict [] false)
           {[ "de_AT" := {[ "Hello" := EMessage (MString "Servus") ]} ]}
           {[ "Hello" := EMessage (MString "Servus") ]}
           "Shelf" (Some 1) (Some "shelf") None None None false); reflexivity.
Defined.

(** X18 at work: an untranslated msgid with surrounding spaces. *)
Lemma gettext_untranslated_identity_witness :
  snd (gettext binaryRule (sampleLanguage "fr_FR" frDict [] false)
         "  Apple " None false) = Returned "  Apple ".
Proof.
  apply (gettext_untranslated_identity (realm := sampleRealm) binaryRule
           (sampleLanguage "fr_FR" frDict [] false) "  Apple " false).
  reflexivity.
Defined.

End FurtherSampleProperties.
